(** * Water-quality classification service (app.py)

    A shallow embedding of the threshold classifier [simple_classification]
    and of the request handler [classify], with the properties of the
    specification stated over them.

    Python floats are IEEE-754 binary64 numbers: they are modelled by Rocq's
    primitive floats, whose comparisons and literals follow the same
    standard (a decimal literal denotes the nearest binary64 value on both
    sides).  Python integers are [Z], strings are [string] (a character is
    a code point below 256), dictionaries with a fixed set of keys are
    records, and the two lookup tables are [gmap]s. *)

From Stdlib Require Import ZArith List Bool Ascii String Lia.
From Stdlib Require Import PrimFloat SpecFloat FloatOps FloatAxioms.
From stdpp Require Import gmap strings pretty.

Set Warnings "-inexact-float".
Local Open Scope Z_scope.

(** Python writes [x > y]; the primitive comparison is [y < x]. *)
Notation "x >? y" := (PrimFloat.ltb y x) (at level 70, no associativity) : float_scope.

(** ** Data *)

(** The dictionary returned by [simple_classification]. *)
Record result := {
  classification : Z;
  classification_label : string;
  confidence : option float;
  method : string;
  reasons : list string;
  not_suitable_count : Z;
  less_suitable_count : Z
}.

(** The local variables that the four checks update in turn. *)
Record locals := {
  st_not_suitable_count : Z;
  st_less_suitable_count : Z;
  st_reasons : list string
}.

(** [not_suitable_count += 1; reasons.append(msg)] *)
Definition add_not_suitable (msg : string) (st : locals) : locals :=
  {| st_not_suitable_count := st_not_suitable_count st + 1;
     st_less_suitable_count := st_less_suitable_count st;
     st_reasons := st_reasons st ++ [msg] |}.

(** [less_suitable_count += 1; reasons.append(msg)] *)
Definition add_less_suitable (msg : string) (st : locals) : locals :=
  {| st_not_suitable_count := st_not_suitable_count st;
     st_less_suitable_count := st_less_suitable_count st + 1;
     st_reasons := st_reasons st ++ [msg] |}.

(** [label_names = {0: 'Kurang Layak', 1: 'Layak', 2: 'Tidak Layak'}] *)
Definition label_names : gmap Z string :=
  <[0 := "Kurang Layak"]> (<[1 := "Layak"]> (<[2 := "Tidak Layak"]> ∅)).

(** [label_names.get(c, 'Unknown')] *)
Definition label_name (c : Z) : string := default "Unknown" (label_names !! c).

(** The verdict on one parameter, and the four parameters in the order in
    which the classifier looks at them. *)
Inductive verdict := Suitable | MarginallySuitable | NotSuitable.

Inductive parameter := PH | TDS | Suhu | DO.

Definition evaluation_order : list parameter := [PH; TDS; Suhu; DO].

Section Threshold.

(** How an f-string renders a float ([format(x, '')], Python's shortest
    round-trip representation); a builtin of the language, kept abstract. *)
Variable float_str : float -> string.

(** ** The reason strings *)

Definition ph_tidak_layak (ph : float) : string :=
  "pH tidak layak (" +:+ float_str ph +:+ ") - Range layak: 6.5-7.8".
Definition ph_kurang_layak (ph : float) : string :=
  "pH kurang layak (" +:+ float_str ph +:+ ") - Range layak: 6.5-7.8".
Definition tds_tidak_layak (tds : float) : string :=
  "TDS tidak layak (" +:+ float_str tds +:+ " mg/L) - Range layak: 50-400 mg/L".
Definition tds_kurang_layak (tds : float) : string :=
  "TDS kurang layak (" +:+ float_str tds +:+ " mg/L) - Range layak: 50-400 mg/L".
Definition suhu_tidak_layak (suhu : float) : string :=
  "Suhu tidak layak (" +:+ float_str suhu +:+ "°C) - Range layak: 23-25°C".
Definition suhu_kurang_layak (suhu : float) : string :=
  "Suhu kurang layak (" +:+ float_str suhu +:+ "°C) - Range layak: 23-25°C".
Definition do_tidak_layak (do : float) : string :=
  "DO tidak layak (" +:+ float_str do +:+ " mg/L) - Range layak: 4-6 mg/L".
Definition do_kurang_layak (do : float) : string :=
  "DO kurang layak (" +:+ float_str do +:+ " mg/L) - Range layak: 4-6 mg/L".

(** ** The four checks, each an [if / elif] over the locals *)

(** [# Cek pH] *)
Definition cek_ph (ph : float) (st : locals) : locals :=
  if ((ph <? 6.0) || (ph >? 8.5))%float then
    add_not_suitable (ph_tidak_layak ph) st
  else if (((6.0 <=? ph) && (ph <? 6.5)) || ((7.8 <? ph) && (ph <=? 8.5)))%float then
    add_less_suitable (ph_kurang_layak ph) st
  else st.

(** [# Cek TDS] *)
Definition cek_tds (tds : float) (st : locals) : locals :=
  if (tds >? 600)%float then
    add_not_suitable (tds_tidak_layak tds) st
  else if ((tds <? 50) || ((400 <? tds) && (tds <=? 600)))%float then
    add_less_suitable (tds_kurang_layak tds) st
  else st.

(** [# Cek Suhu] *)
Definition cek_suhu (suhu : float) (st : locals) : locals :=
  if ((suhu <? 21) || (suhu >? 27))%float then
    add_not_suitable (suhu_tidak_layak suhu) st
  else if (((21 <=? suhu) && (suhu <? 23)) || ((25 <? suhu) && (suhu <=? 27)))%float then
    add_less_suitable (suhu_kurang_layak suhu) st
  else st.

(** [# Cek DO] *)
Definition cek_do (do : float) (st : locals) : locals :=
  if ((do <? 2.5) || (do >? 7))%float then
    add_not_suitable (do_tidak_layak do) st
  else if (((2.5 <=? do) && (do <? 4)) || ((6 <? do) && (do <=? 7)))%float then
    add_less_suitable (do_kurang_layak do) st
  else st.

(** ** [simple_classification] *)

(** [reasons = []; not_suitable_count = 0; less_suitable_count = 0] *)
Definition initial_locals : locals :=
  {| st_not_suitable_count := 0; st_less_suitable_count := 0; st_reasons := [] |}.

(** [# Tentukan klasifikasi] *)
Definition tentukan_klasifikasi (st : locals) : Z :=
  if st_not_suitable_count st >? 0 then 2
  else if st_less_suitable_count st >? 0 then 0
  else 1.

Definition simple_classification (ph tds suhu do : float) : result :=
  let st := initial_locals in
  let st := cek_ph ph st in
  let st := cek_tds tds st in
  let st := cek_suhu suhu st in
  let st := cek_do do st in
  let classification := tentukan_klasifikasi st in
  {| classification := classification;
     classification_label := label_name classification;
     confidence := None;
     method := "simple_threshold";
     reasons := st_reasons st;
     not_suitable_count := st_not_suitable_count st;
     less_suitable_count := st_less_suitable_count st |}.

End Threshold.

(** ** Exceptions *)

(** A Python exception, told apart the way the handler's [except] clauses
    do: a [ValueError], or any other subclass of [Exception]; [msg] is what
    [str(e)] gives. *)
Inductive exn :=
| ValueError (msg : string)
| OtherException (msg : string).

(** A computation that returns a value or raises. *)
Definition py (A : Type) : Type := exn + A.

Definition ret {A} (a : A) : py A := inr a.
Definition raise {A} (e : exn) : py A := inl e.
Definition bind {A B} (c : py A) (k : A -> py B) : py B :=
  match c with
  | inl e => inl e
  | inr a => k a
  end.

Notation "c >>= k" := (bind c k) (at level 50, left associativity).

(** ** Strings *)

(** [str.isspace] on a code point below 256. *)
Definition isspace (c : ascii) : bool :=
  let n := N_of_ascii c in
  ((9 <=? n) && (n <=? 13) || (28 <=? n) && (n <=? 32) || (n =? 133) || (n =? 160))%N.

Fixpoint lstrip (s : string) : string :=
  match s with
  | String c s' => if isspace c then lstrip s' else s
  | EmptyString => EmptyString
  end.

Definition rstrip (s : string) : string := String.rev (lstrip (String.rev s)).

(** [s.strip()] *)
Definition strip (s : string) : string := rstrip (lstrip s).

(** ** The model and the request *)

(** The one-row frame handed to the model, columns in the order the handler
    builds it. *)
Record DataFrame := {
  df_suhu : float;
  df_ph : float;
  df_do : float;
  df_tds : float
}.

(** What [model.predict(df)[0]] can be: a string label or a number. *)
Inductive prediction :=
| PStr (s : string)
| PInt (n : Z)
| PFloat (x : float).

(** The loaded model: [predict(df)[0]] and [predict_proba(df)[0]], each of
    which may raise. *)
Record Model := {
  predict : DataFrame -> py prediction;
  predict_proba : DataFrame -> py (list float)
}.

(** A value of the request's JSON object, by what [float()] does with it. *)
Inductive jval :=
| JNum (x : float)       (* a number or boolean: [float()] returns [x] *)
| JStr (s : string)      (* a string: [float()] parses it or raises ValueError *)
| JOther (msg : string). (* null, array, object, oversized integer:
                            [float()] raises TypeError or OverflowError *)

(** The [input] entry of the model-path result. *)
Record reading := {
  in_ph : float;
  in_tds : float;
  in_suhu : float;
  in_do : float
}.

(** The dictionary built on the model path. *)
Module ModelResult.
Record t := {
  classification : Z;
  classification_label : string;
  confidence : option float;
  method : string;
  original_prediction : string;
  input : reading
}.
End ModelResult.

(** The JSON body of a response: an error payload, the threshold result
    with its [note], or the model-path result. *)
Inductive body :=
| ErrorBody (error : string)
| ThresholdBody (r : result) (note : string)
| ModelBody (r : ModelResult.t).

(** A response: body and HTTP status. *)
Definition response : Type := body * Z.

(** The [label_map] of the handler. *)
Definition label_map : gmap string Z :=
  <["Layak" := 1]> (<["Kurang Layak" := 0]> (<["Kurang layak" := 0]>
  (<["Tidak Layak" := 2]> (<["Tidak layak" := 2]> ∅)))).

(** [max(probability)]: the first item, replaced by each later item that
    compares greater; raises on an empty sequence. *)
Definition py_max (probability : list float) : py float :=
  match probability with
  | [] => raise (ValueError "max() arg is an empty sequence")
  | x :: xs => ret (fold_left (fun m item => if (item >? m)%float then item else m) xs x)
  end.

(** [int(x)] on a float: truncation towards zero; NaN raises ValueError,
    an infinity raises OverflowError. *)
Definition int_of_float (x : float) : py Z :=
  match Prim2SF x with
  | S754_nan => raise (ValueError "cannot convert float NaN to integer")
  | S754_infinity _ => raise (OtherException "cannot convert float infinity to integer")
  | S754_zero _ => ret 0
  | S754_finite s m e =>
      let magnitude := Z.shiftl (Z.pos m) e in
      ret (if s then - magnitude else magnitude)
  end.

Section Handler.

(** Two builtins of the language, kept abstract: how a float is rendered
    as text, and [float(s)] on a string, which gives the parsed number or
    the message of the ValueError it raises. *)
Variable float_str : float -> string.
Variable float_of_str : string -> string + float.

(** [float(v)] *)
Definition py_float (v : jval) : py float :=
  match v with
  | JNum x => ret x
  | JStr s =>
      match float_of_str s with
      | inl msg => raise (ValueError msg)
      | inr x => ret x
      end
  | JOther msg => raise (OtherException msg)
  end.

(** [data[k]]; a missing key raises KeyError. *)
Definition getitem (data : gmap string jval) (k : string) : py jval :=
  match data !! k with
  | Some v => ret v
  | None => raise (OtherException k)
  end.

(** [int(prediction)] *)
Definition py_int (prediction : prediction) : py Z :=
  match prediction with
  | PStr s => raise (ValueError "invalid literal for int()")
  | PInt n => ret n
  | PFloat x => int_of_float x
  end.

(** [str(prediction)] *)
Definition py_str (prediction : prediction) : string :=
  match prediction with
  | PStr s => s
  | PInt n => pretty n
  | PFloat x => float_str x
  end.

(** [# Convert ke integer jika perlu] *)
Definition prediction_to_int (prediction : prediction) : py Z :=
  match prediction with
  | PStr s => ret (default 1 (label_map !! strip s))
  | _ => py_int prediction
  end.

(** [# Get probability jika tersedia]: whatever is raised inside the inner
    [try] leaves the confidence at [None]. *)
Definition get_confidence (model : Model) (df : DataFrame) : option float :=
  match predict_proba model df >>= py_max with
  | inr m => Some (m * 100)%float
  | inl _ => None
  end.

(** The body of the handler's [try]. *)
Definition classify_try (model : option Model) (data : gmap string jval) : py response :=
  if negb (forallb (fun k => bool_decide (is_Some (data !! k))) ["ph"; "tds"; "suhu"; "do"]) then
    ret (ErrorBody "Missing required parameters. Need: ph, tds, suhu, do", 400)
  else
    getitem data "ph" >>= py_float >>= fun ph =>
    getitem data "tds" >>= py_float >>= fun tds =>
    getitem data "suhu" >>= py_float >>= fun suhu =>
    getitem data "do" >>= py_float >>= fun do_value =>
    match model with
    | None =>
        let result := simple_classification float_str ph tds suhu do_value in
        ret (ThresholdBody result "Using fallback classification (model not loaded)", 200)
    | Some model =>
        let df := {| df_suhu := suhu; df_ph := ph; df_do := do_value; df_tds := tds |} in
        predict model df >>= fun prediction =>
        prediction_to_int prediction >>= fun prediction_int =>
        let confidence := get_confidence model df in
        let result :=
          {| ModelResult.classification := prediction_int;
             ModelResult.classification_label := label_name prediction_int;
             ModelResult.confidence := confidence;
             ModelResult.method := "decision_tree_model";
             ModelResult.original_prediction := py_str prediction;
             ModelResult.input :=
               {| in_ph := ph; in_tds := tds; in_suhu := suhu; in_do := do_value |} |} in
        ret (ModelBody result, 200)
    end.

(** [classify]: the [try] and its two [except] clauses. *)
Definition classify (model : option Model) (data : gmap string jval) : response :=
  match classify_try model data with
  | inr r => r
  | inl (ValueError msg) => (ErrorBody ("Invalid input values: " +:+ msg), 400)
  | inl (OtherException msg) => (ErrorBody ("Classification failed: " +:+ msg), 500)
  end.

End Handler.

(** ** Verdicts *)

(** The condition of the first branch of each check. *)
Definition bad_zone (p : parameter) (x : float) : bool :=
  match p with
  | PH => (x <? 6.0) || (x >? 8.5)
  | TDS => x >? 600
  | Suhu => (x <? 21) || (x >? 27)
  | DO => (x <? 2.5) || (x >? 7)
  end%float.

(** The condition of the [elif] branch of each check. *)
Definition marginal_band (p : parameter) (x : float) : bool :=
  match p with
  | PH => ((6.0 <=? x) && (x <? 6.5)) || ((7.8 <? x) && (x <=? 8.5))
  | TDS => (x <? 50) || ((400 <? x) && (x <=? 600))
  | Suhu => ((21 <=? x) && (x <? 23)) || ((25 <? x) && (x <=? 27))
  | DO => ((2.5 <=? x) && (x <? 4)) || ((6 <? x) && (x <=? 7))
  end%float.

(** The branch a check takes on a value. *)
Definition verdict_of (p : parameter) (x : float) : verdict :=
  if bad_zone p x then NotSuitable
  else if marginal_band p x then MarginallySuitable
  else Suitable.

Definition is_not_suitable (v : verdict) : bool :=
  match v with NotSuitable => true | _ => false end.

Definition is_marginal (v : verdict) : bool :=
  match v with MarginallySuitable => true | _ => false end.

(** The four values paired with their parameters, in evaluation order. *)
Definition readings (ph tds suhu do : float) : list (parameter * float) :=
  [(PH, ph); (TDS, tds); (Suhu, suhu); (DO, do)].

(** The reason a parameter contributes: none when its verdict is
    [Suitable]. *)
Definition reason_for (float_str : float -> string) (px : parameter * float) : option string :=
  let '(p, x) := px in
  match verdict_of p x, p with
  | Suitable, _ => None
  | NotSuitable, PH => Some (ph_tidak_layak float_str x)
  | NotSuitable, TDS => Some (tds_tidak_layak float_str x)
  | NotSuitable, Suhu => Some (suhu_tidak_layak float_str x)
  | NotSuitable, DO => Some (do_tidak_layak float_str x)
  | MarginallySuitable, PH => Some (ph_kurang_layak float_str x)
  | MarginallySuitable, TDS => Some (tds_kurang_layak float_str x)
  | MarginallySuitable, Suhu => Some (suhu_kurang_layak float_str x)
  | MarginallySuitable, DO => Some (do_kurang_layak float_str x)
  end.

(** What a verdict does to the locals. *)
Definition record_verdict (v : verdict) (msg : option string) (st : locals) : locals :=
  match v, msg with
  | NotSuitable, Some m => add_not_suitable m st
  | MarginallySuitable, Some m => add_less_suitable m st
  | _, _ => st
  end.

(** The locals after the checks of a list of readings, taken in order. *)
Definition run_checks (float_str : float -> string)
    (l : list (parameter * float)) (st : locals) : locals :=
  fold_left
    (fun st px => record_verdict (verdict_of px.1 px.2) (reason_for float_str px) st)
    l st.

(** The invariant of the locals: as many reasons as counted parameters,
    counts that never go down, and at most [n] parameters counted. *)
Definition counted (n : Z) (st : locals) : Prop :=
  Z.of_nat (length (st_reasons st)) = st_not_suitable_count st + st_less_suitable_count st
  /\ 0 <= st_not_suitable_count st
  /\ 0 <= st_less_suitable_count st
  /\ st_not_suitable_count st + st_less_suitable_count st <= n.

(** The request is accepted with the four readings [ph], [tds], [suhu],
    [do]: every key is present and [float()] succeeds on its value. *)
Definition field (float_of_str : string -> string + float)
    (data : gmap string jval) (k : string) : option (py float) :=
  py_float float_of_str <$> data !! k.

Definition valid_request (float_of_str : string -> string + float)
    (data : gmap string jval) (ph tds suhu do : float) : Prop :=
  field float_of_str data "ph" = Some (inr ph)
  /\ field float_of_str data "tds" = Some (inr tds)
  /\ field float_of_str data "suhu" = Some (inr suhu)
  /\ field float_of_str data "do" = Some (inr do).

(** ** Sample inputs

    Python's rendering and parsing of floats on the values the examples
    use, a request, and some models. *)
Module Sample.

Fixpoint assoc_float (x : float) (l : list (float * string)) : option string :=
  match l with
  | [] => None
  | (y, s) :: l' => if (x =? y)%float then Some s else assoc_float x l'
  end.

Definition float_str (x : float) : string :=
  default "?" (assoc_float x
    [(6.0, "6.0"); (6.2, "6.2"); (6.5, "6.5"); (7.0, "7.0"); (7.8, "7.8");
     (7.80001, "7.80001"); (8.5, "8.5"); (8.50001, "8.50001"); (5.0, "5.0");
     (24, "24.0"); (200, "200.0"); (700, "700.0"); (2, "2.0")]%float).

Definition float_of_str (s : string) : string + float :=
  if decide (s = "7.0") then inr 7.0%float
  else if decide (s = "200") then inr 200%float
  else inl ("could not convert string to float: '" +:+ s +:+ "'").

(** [{"ph": ph, "tds": tds, "suhu": suhu, "do": do}] *)
Definition request (ph tds suhu do : float) : gmap string jval :=
  <["ph" := JNum ph]> (<["tds" := JNum tds]> (<["suhu" := JNum suhu]>
  (<["do" := JNum do]> ∅))).

(** A model whose [predict] returns [p] and whose [predict_proba] returns
    the row [probs]. *)
Definition constant_model (p : prediction) (probs : list float) : Model :=
  {| predict := fun _ => ret p; predict_proba := fun _ => ret probs |}.

(** A model whose [predict] raises [e]. *)
Definition failing_model (e : exn) : Model :=
  {| predict := fun _ => raise e;
     predict_proba := fun _ => raise e |}.

(** A model without usable [predict_proba]. *)
Definition model_without_proba (p : prediction) : Model :=
  {| predict := fun _ => ret p;
     predict_proba := fun _ => raise (OtherException "predict_proba is not available") |}.

End Sample.

(** ** Start-up and the health endpoint *)

(** The start-up [try: model = joblib.load(MODEL_PATH) / except: model =
    None]; [joblib_load] is the outcome of the call: it raises, or it
    returns what the file holds, which is bound to [model] as it is and may
    be [None].  (Any other object is a [Model]; one without a usable
    [predict] is a [Model] whose [predict] raises.) *)
Definition load_model (joblib_load : py (option Model)) : option Model :=
  match joblib_load with
  | inr model => model
  | inl _ => None
  end.

(** The body of the [/health] response. *)
Record health_body := {
  status : string;
  model_loaded : bool;
  message : string
}.

(** [health] *)
Definition health (model : option Model) : health_body * Z :=
  ({| status := "healthy";
      model_loaded := match model with Some _ => true | None => false end;
      message := "Classification API is running" |}, 200).

(** ** Vocabulary of the further properties *)

(** The keys the handler requires, in the order it converts them. *)
Definition required_keys : list string := ["ph"; "tds"; "suhu"; "do"].

(** The response of the two [except] clauses. *)
Definition error_response (e : exn) : response :=
  match e with
  | ValueError msg => (ErrorBody ("Invalid input values: " +:+ msg), 400)
  | OtherException msg => (ErrorBody ("Classification failed: " +:+ msg), 500)
  end.

(** The exception of the first required key, in order, whose value
    [float()] rejects. *)
Definition first_error (float_of_str : string -> string + float)
    (data : gmap string jval) : option exn :=
  head (omap (fun k => match field float_of_str data k with
                       | Some (inl e) => Some e
                       | _ => None
                       end) required_keys).

(** The range the reason strings of a parameter advertise as
    "Range layak". *)
Definition range_layak (p : parameter) : float * float :=
  match p with
  | PH => (6.5, 7.8)
  | TDS => (50, 400)
  | Suhu => (23, 25)
  | DO => (4, 6)
  end%float.

Definition in_range_layak (p : parameter) (x : float) : bool :=
  ((range_layak p).1 <=? x)%float && (x <=? (range_layak p).2)%float.

(** A string of whitespace only. *)
Fixpoint all_space (s : string) : bool :=
  match s with
  | EmptyString => true
  | String c s' => isspace c && all_space s'
  end.

(** *** The order of binary64 numbers

    The place of a number on the line: its sign class, then its exponent,
    then its mantissa, compared in that order; NaN has no place. *)
Definition SFkey (f : spec_float) : option (Z * Z * Z) :=
  match f with
  | S754_nan => None
  | S754_zero _ => Some (0, 0, 0)
  | S754_infinity s => Some (if s then -2 else 2, 0, 0)
  | S754_finite s m e => Some (if s then (-1, - e, - Z.pos m) else (1, e, Z.pos m))
  end.

Definition key_le (k1 k2 : Z * Z * Z) : Prop :=
  let '(a1, b1, c1) := k1 in
  let '(a2, b2, c2) := k2 in
  a1 < a2 \/ (a1 = a2 /\ (b1 < b2 \/ (b1 = b2 /\ c1 <= c2))).

Definition key_lt (k1 k2 : Z * Z * Z) : Prop :=
  let '(a1, b1, c1) := k1 in
  let '(a2, b2, c2) := k2 in
  a1 < a2 \/ (a1 = a2 /\ (b1 < b2 \/ (b1 = b2 /\ c1 < c2))).

Definition SFle (f1 f2 : spec_float) : Prop :=
  match SFkey f1, SFkey f2 with
  | Some k1, Some k2 => key_le k1 k2
  | _, _ => False
  end.

Definition SFlt (f1 f2 : spec_float) : Prop :=
  match SFkey f1, SFkey f2 with
  | Some k1, Some k2 => key_lt k1 k2
  | _, _ => False
  end.

(** * Properties of the threshold classifier *)

Section ThresholdProperties.

Variable float_str : float -> string.

(** Each check does what the verdict on its value says. *)
Lemma cek_ph_verdict ph st :
  cek_ph float_str ph st
  = record_verdict (verdict_of PH ph) (reason_for float_str (PH, ph)) st.
Proof.
  unfold cek_ph, reason_for, verdict_of, bad_zone, marginal_band.
  destruct (_ || _); [reflexivity |].
  destruct (_ || _); reflexivity.
Qed.

Lemma cek_tds_verdict tds st :
  cek_tds float_str tds st
  = record_verdict (verdict_of TDS tds) (reason_for float_str (TDS, tds)) st.
Proof.
  unfold cek_tds, reason_for, verdict_of, bad_zone, marginal_band.
  destruct (tds >? 600)%float; [reflexivity |].
  destruct (_ || _); reflexivity.
Qed.

Lemma cek_suhu_verdict suhu st :
  cek_suhu float_str suhu st
  = record_verdict (verdict_of Suhu suhu) (reason_for float_str (Suhu, suhu)) st.
Proof.
  unfold cek_suhu, reason_for, verdict_of, bad_zone, marginal_band.
  destruct (_ || _); [reflexivity |].
  destruct (_ || _); reflexivity.
Qed.

Lemma cek_do_verdict do st :
  cek_do float_str do st
  = record_verdict (verdict_of DO do) (reason_for float_str (DO, do)) st.
Proof.
  unfold cek_do, reason_for, verdict_of, bad_zone, marginal_band.
  destruct (_ || _); [reflexivity |].
  destruct (_ || _); reflexivity.
Qed.

Lemma simple_classification_run ph tds suhu do :
  cek_do float_str do
    (cek_suhu float_str suhu
      (cek_tds float_str tds (cek_ph float_str ph initial_locals)))
  = run_checks float_str (readings ph tds suhu do) initial_locals.
Proof.
  rewrite cek_do_verdict, cek_suhu_verdict, cek_tds_verdict, cek_ph_verdict.
  reflexivity.
Qed.

(** A reason is contributed exactly by the verdicts other than Suitable. *)
Lemma reason_for_None px :
  reason_for float_str px = None <-> verdict_of px.1 px.2 = Suitable.
Proof.
  destruct px as [p x]; unfold reason_for; simpl.
  destruct (verdict_of p x), p; split; intros H; try reflexivity; discriminate H.
Qed.

Lemma record_verdict_reasons px st :
  st_reasons (record_verdict (verdict_of px.1 px.2) (reason_for float_str px) st)
  = st_reasons st ++ option_list (reason_for float_str px).
Proof.
  destruct px as [p x]; unfold reason_for; simpl.
  destruct (verdict_of p x), p; simpl; rewrite ?app_nil_r; reflexivity.
Qed.

Lemma run_checks_reasons l : forall st,
  st_reasons (run_checks float_str l st) = st_reasons st ++ omap (reason_for float_str) l.
Proof.
  induction l as [| px l IH]; intros st; simpl.
  - now rewrite app_nil_r.
  - unfold run_checks in *; simpl. rewrite IH, record_verdict_reasons.
    rewrite <- app_assoc. f_equal.
    destruct (reason_for float_str px); reflexivity.
Qed.

Lemma counted_initial : counted 0 initial_locals.
Proof. unfold counted; simpl; lia. Qed.

Lemma counted_record_verdict n v msg st :
  counted n st -> counted (n + 1) (record_verdict v msg st).
Proof.
  unfold counted; intros (Hlen & Hn & Hl & Hsum).
  destruct v, msg as [m |]; simpl; rewrite ?length_app; simpl; lia.
Qed.

Lemma counted_run_checks l : forall n st,
  counted n st -> counted (n + Z.of_nat (length l)) (run_checks float_str l st).
Proof.
  induction l as [| px l IH]; intros n st H.
  - cbn [length run_checks fold_left]. now rewrite Z.add_0_r.
  - cbn [length]. rewrite Nat2Z.inj_succ.
    replace (n + Z.succ (Z.of_nat (length l)))
      with ((n + 1) + Z.of_nat (length l)) by lia.
    apply (IH (n + 1)), counted_record_verdict, H.
Qed.

End ThresholdProperties.

Section ThresholdClaims.

Variable float_str : float -> string.

(** C1: the overall label follows the strict priority order: 2 as soon as
    [not_suitable_count] is positive, else 0 when [less_suitable_count] is
    positive, else 1.  In terms of the parameters: one NotSuitable verdict
    gives 2 whatever the others are; without one, a MarginallySuitable
    verdict gives 0; four Suitable verdicts give 1. *)
Theorem classification_priority ph tds suhu do :
  let r := simple_classification float_str ph tds suhu do in
  let verdicts := map (fun px => verdict_of px.1 px.2) (readings ph tds suhu do) in
  classification r
  = (if not_suitable_count r >? 0 then 2
     else if less_suitable_count r >? 0 then 0
     else 1)
  /\ classification r
     = (if existsb is_not_suitable verdicts then 2
        else if existsb is_marginal verdicts then 0
        else 1).
Proof.
  split; [reflexivity |].
  unfold simple_classification; cbn [classification].
  rewrite simple_classification_run.
  unfold readings, run_checks, reason_for; cbn [fold_left map existsb fst snd].
  destruct (verdict_of PH ph), (verdict_of TDS tds),
    (verdict_of Suhu suhu), (verdict_of DO do); reflexivity.
Qed.

(** C2, as the code has it: a pH of exactly 6.0 is in the marginal band.
    The pH check counts it in [less_suitable_count], leaves
    [not_suitable_count] alone and appends the "kurang layak" reason. *)
Theorem ph_6_is_marginal st :
  verdict_of PH 6.0 = MarginallySuitable
  /\ cek_ph float_str 6.0 st = add_less_suitable (ph_kurang_layak float_str 6.0) st
  /\ st_not_suitable_count (cek_ph float_str 6.0 st) = st_not_suitable_count st
  /\ st_less_suitable_count (cek_ph float_str 6.0 st) = st_less_suitable_count st + 1.
Proof. repeat split; reflexivity. Qed.

(** C6: on the upper side of the pH window, 6.5 and 7.8 are Suitable (the
    locals are left as they were), 7.80001 and 8.5 are MarginallySuitable
    ([less_suitable_count] goes up by one, the other count stays, the
    "kurang layak" reason is appended), and 8.50001 is NotSuitable
    ([not_suitable_count] goes up by one, the other count stays, the "tidak
    layak" reason is appended).  With the other readings good, the counts
    and the number of reasons of the whole result are as listed. *)
Theorem ph_boundaries st :
  cek_ph float_str 6.5 st = st
  /\ cek_ph float_str 7.8 st = st
  /\ cek_ph float_str 7.80001 st = add_less_suitable (ph_kurang_layak float_str 7.80001) st
  /\ cek_ph float_str 8.5 st = add_less_suitable (ph_kurang_layak float_str 8.5) st
  /\ cek_ph float_str 8.50001 st = add_not_suitable (ph_tidak_layak float_str 8.50001) st
  /\ map (verdict_of PH) [6.5; 7.8; 7.80001; 8.5; 8.50001]%float
     = [Suitable; Suitable; MarginallySuitable; MarginallySuitable; NotSuitable]
  /\ (st_less_suitable_count (cek_ph float_str 7.80001 st) = st_less_suitable_count st + 1
      /\ st_not_suitable_count (cek_ph float_str 7.80001 st) = st_not_suitable_count st
      /\ st_reasons (cek_ph float_str 7.80001 st)
         = st_reasons st ++ [ph_kurang_layak float_str 7.80001])
  /\ (st_less_suitable_count (cek_ph float_str 8.5 st) = st_less_suitable_count st + 1
      /\ st_not_suitable_count (cek_ph float_str 8.5 st) = st_not_suitable_count st
      /\ st_reasons (cek_ph float_str 8.5 st)
         = st_reasons st ++ [ph_kurang_layak float_str 8.5])
  /\ (st_not_suitable_count (cek_ph float_str 8.50001 st) = st_not_suitable_count st + 1
      /\ st_less_suitable_count (cek_ph float_str 8.50001 st) = st_less_suitable_count st
      /\ st_reasons (cek_ph float_str 8.50001 st)
         = st_reasons st ++ [ph_tidak_layak float_str 8.50001])
  /\ map (fun ph =>
            let r := simple_classification float_str ph 200 24 5.0 in
            (not_suitable_count r, less_suitable_count r, length (reasons r)))
         [6.5; 7.8; 7.80001; 8.5; 8.50001]%float
     = [(0, 0, 0%nat); (0, 0, 0%nat); (0, 1, 1%nat); (0, 1, 1%nat); (1, 0, 1%nat)].
Proof. repeat split; reflexivity. Qed.

(** C7: the threshold classifier always reports the method
    "simple_threshold" and no confidence. *)
Theorem simple_classification_method_confidence ph tds suhu do :
  method (simple_classification float_str ph tds suhu do) = "simple_threshold"
  /\ confidence (simple_classification float_str ph tds suhu do) = None.
Proof. split; reflexivity. Qed.

(** C9: the reasons are those of the parameters in the order pH, TDS,
    temperature, DO, one for each parameter whose verdict is NotSuitable or
    MarginallySuitable and none for a Suitable one. *)
Theorem reasons_in_evaluation_order ph tds suhu do :
  reasons (simple_classification float_str ph tds suhu do)
  = omap (reason_for float_str) (readings ph tds suhu do)
  /\ map fst (readings ph tds suhu do) = evaluation_order
  /\ forall px, is_Some (reason_for float_str px) <-> verdict_of px.1 px.2 <> Suitable.
Proof.
  split; [| split; [reflexivity |]].
  - unfold simple_classification; cbn [reasons].
    rewrite simple_classification_run, run_checks_reasons. reflexivity.
  - intros px. rewrite <- not_eq_None_Some, reason_for_None. reflexivity.
Qed.

(** C10: there are as many reasons as counted parameters, each count is
    between 0 and 4, and the two counts together are at most 4. *)
Theorem reasons_length_and_counts ph tds suhu do :
  let r := simple_classification float_str ph tds suhu do in
  Z.of_nat (length (reasons r)) = not_suitable_count r + less_suitable_count r
  /\ 0 <= not_suitable_count r <= 4
  /\ 0 <= less_suitable_count r <= 4
  /\ not_suitable_count r + less_suitable_count r <= 4.
Proof.
  unfold simple_classification;
    cbn [reasons not_suitable_count less_suitable_count].
  rewrite simple_classification_run.
  pose proof (counted_run_checks float_str (readings ph tds suhu do) 0
                initial_locals counted_initial) as H.
  unfold counted in H; cbn [length readings Z.of_nat] in H. lia.
Qed.

End ThresholdClaims.

(** C2, as stated, fails: at pH 6.0 the pH check does not increment
    [not_suitable_count]; a sample with the other readings good is
    classified 0 with one marginal parameter. *)
Lemma ph_6_not_counted_not_suitable :
  st_not_suitable_count (cek_ph Sample.float_str 6.0 initial_locals)
    <> st_not_suitable_count initial_locals + 1
  /\ simple_classification Sample.float_str 6.0 200 24 5.0
     = {| classification := 0;
          classification_label := "Kurang Layak";
          confidence := None;
          method := "simple_threshold";
          reasons := ["pH kurang layak (6.0) - Range layak: 6.5-7.8"];
          not_suitable_count := 0;
          less_suitable_count := 1 |}.
Proof. split; [discriminate | reflexivity]. Qed.

(** * Properties of the request handler *)

(** [label_names.get]: the three names, and "Unknown" for any other number. *)
Lemma label_name_cases n :
  label_name n
  = if decide (n = 0) then "Kurang Layak"
    else if decide (n = 1) then "Layak"
    else if decide (n = 2) then "Tidak Layak"
    else "Unknown".
Proof.
  unfold label_name, label_names.
  rewrite !lookup_insert, lookup_empty.
  repeat case_decide; subst; try reflexivity; congruence.
Qed.

(** [label_map.get(k, 1)], key by key. *)
Lemma label_map_lookup k :
  default 1 (label_map !! k)
  = if bool_decide (k ∈ ["Kurang Layak"; "Kurang layak"]) then 0
    else if bool_decide (k ∈ ["Tidak Layak"; "Tidak layak"]) then 2
    else 1.
Proof.
  unfold label_map.
  rewrite !lookup_insert, lookup_empty.
  repeat case_decide; subst; repeat case_bool_decide; try reflexivity; exfalso;
    repeat match goal with
           | H : context [_ ∈ _] |- _ =>
               progress rewrite ?elem_of_cons, ?elem_of_nil in H
           end;
    intuition congruence.
Qed.

(** The item [max] returns is one of the sequence. *)
Lemma py_max_In l m : py_max l = inr m -> In m l.
Proof.
  destruct l as [| x xs]; [discriminate |].
  unfold py_max, ret; intros [= <-].
  assert (forall ys a, fold_left (fun m item => if (item >? m)%float then item else m) ys a = a
                       \/ In (fold_left (fun m item => if (item >? m)%float then item else m) ys a) ys)
    as H.
  { induction ys as [| y ys IH]; intros a; cbn [fold_left].
    - now left.
    - destruct (IH (if (y >? a)%float then y else a)) as [E | I].
      + rewrite E. destruct (y >? a)%float; [right; now left | now left].
      + right; now right. }
  destruct (H xs x) as [E | I]; [rewrite E; now left | now right].
Qed.

Section HandlerProperties.

Variable float_str : float -> string.
Variable float_of_str : string -> string + float.

(** On an accepted request the handler goes straight to the choice between
    the fallback and the model. *)
Lemma classify_try_valid model data ph tds suhu do :
  valid_request float_of_str data ph tds suhu do ->
  classify_try float_str float_of_str model data
  = match model with
    | None =>
        ret (ThresholdBody (simple_classification float_str ph tds suhu do)
               "Using fallback classification (model not loaded)", 200)
    | Some model =>
        let df := {| df_suhu := suhu; df_ph := ph; df_do := do; df_tds := tds |} in
        predict model df >>= fun prediction =>
        prediction_to_int prediction >>= fun prediction_int =>
        ret (ModelBody
          {| ModelResult.classification := prediction_int;
             ModelResult.classification_label := label_name prediction_int;
             ModelResult.confidence := get_confidence model df;
             ModelResult.method := "decision_tree_model";
             ModelResult.original_prediction := py_str float_str prediction;
             ModelResult.input :=
               {| in_ph := ph; in_tds := tds; in_suhu := suhu; in_do := do |} |}, 200)
    end.
Proof.
  unfold valid_request, field.
  intros (H1 & H2 & H3 & H4).
  apply fmap_Some in H1 as (v1 & E1 & F1), H2 as (v2 & E2 & F2),
    H3 as (v3 & E3 & F3), H4 as (v4 & E4 & F4).
  unfold classify_try, getitem; cbn [forallb].
  rewrite E1, E2, E3, E4.
  rewrite !bool_decide_true by eauto.
  cbn [andb negb bind ret]. rewrite <- F1, <- F2, <- F3, <- F4.
  reflexivity.
Qed.

(** The response of the model path once the prediction is an integer. *)
Lemma classify_model_path m data ph tds suhu do p n :
  let df := {| df_suhu := suhu; df_ph := ph; df_do := do; df_tds := tds |} in
  valid_request float_of_str data ph tds suhu do ->
  predict m df = inr p ->
  prediction_to_int p = inr n ->
  classify float_str float_of_str (Some m) data
  = (ModelBody
       {| ModelResult.classification := n;
          ModelResult.classification_label := label_name n;
          ModelResult.confidence := get_confidence m df;
          ModelResult.method := "decision_tree_model";
          ModelResult.original_prediction := py_str float_str p;
          ModelResult.input :=
            {| in_ph := ph; in_tds := tds; in_suhu := suhu; in_do := do |} |}, 200).
Proof.
  intros df Hreq Hp Hn. unfold classify.
  rewrite (classify_try_valid _ _ _ _ _ _ Hreq); cbn zeta.
  fold df. rewrite Hp; cbn [bind]. rewrite Hn. reflexivity.
Qed.

End HandlerProperties.

Section HandlerClaims.

Variable float_str : float -> string.
Variable float_of_str : string -> string + float.

(** C3, as the code has it: a string label is trimmed and looked up
    exactly, letter case included, among the five spellings of the table;
    the two spellings of "Kurang Layak" give 0, the two of "Tidak Layak"
    give 2, and every other string, "Layak" among them, gives 1.  No string
    raises an error. *)
Theorem string_label_mapping s :
  prediction_to_int (PStr s)
  = inr (if bool_decide (strip s ∈ ["Kurang Layak"; "Kurang layak"]) then 0
         else if bool_decide (strip s ∈ ["Tidak Layak"; "Tidak layak"]) then 2
         else 1).
Proof. unfold prediction_to_int, ret. now rewrite label_map_lookup. Qed.

(** C4, as the code has it: on an accepted request, a model that was not
    loaded gives the threshold result with its note and status 200, while a
    loaded model whose [predict] raises gives an error response: status 400
    for a ValueError, status 500 for any other exception. *)
Theorem fallback_only_when_model_not_loaded m data ph tds suhu do e
    (Hreq : valid_request float_of_str data ph tds suhu do)
    (Hpredict :
       predict m {| df_suhu := suhu; df_ph := ph; df_do := do; df_tds := tds |} = inl e) :
  classify float_str float_of_str None data
  = (ThresholdBody (simple_classification float_str ph tds suhu do)
       "Using fallback classification (model not loaded)", 200)
  /\ classify float_str float_of_str (Some m) data
     = match e with
       | ValueError msg => (ErrorBody ("Invalid input values: " +:+ msg), 400)
       | OtherException msg => (ErrorBody ("Classification failed: " +:+ msg), 500)
       end.
Proof.
  unfold classify.
  rewrite !(classify_try_valid _ _ _ _ _ _ _ _ Hreq); cbn zeta.
  rewrite Hpredict. split; reflexivity.
Qed.

(** C5, as the code has it: on the model path the response has status 200,
    [classification] is the integer the prediction converts to -- 0, 1 or 2
    for a string, [int(prediction)] as it is for a number -- and
    [classification_label] is the name of that integer when it is 0, 1 or
    2 and "Unknown" otherwise. *)
Theorem model_path_classification m data ph tds suhu do p n
    (Hreq : valid_request float_of_str data ph tds suhu do)
    (Hpredict :
       predict m {| df_suhu := suhu; df_ph := ph; df_do := do; df_tds := tds |} = inr p)
    (Hint : prediction_to_int p = inr n) :
  exists r,
    classify float_str float_of_str (Some m) data = (ModelBody r, 200)
    /\ ModelResult.classification r = n
    /\ ModelResult.classification_label r
       = (if decide (n = 0) then "Kurang Layak"
          else if decide (n = 1) then "Layak"
          else if decide (n = 2) then "Tidak Layak"
          else "Unknown")
    /\ match p with
       | PStr _ => n = 0 \/ n = 1 \/ n = 2
       | PInt k => n = k
       | PFloat x => int_of_float x = inr n
       end.
Proof.
  eexists. split; [apply (classify_model_path _ _ _ _ _ _ _ _ _ _ Hreq Hpredict Hint) |].
  cbn [ModelResult.classification ModelResult.classification_label].
  split; [reflexivity |]. split; [apply label_name_cases |].
  destruct p as [s | k | x]; cbn [prediction_to_int py_int ret] in Hint.
  - rewrite label_map_lookup in Hint.
    repeat case_bool_decide; injection Hint as <-; auto.
  - now injection Hint as <-.
  - exact Hint.
Qed.

(** C8: on the model path the classification succeeds whether or not the
    probabilities can be had: when [predict_proba] raises, the confidence
    is null; when it returns a row of probabilities, the confidence is the
    maximum of the row times 100. *)
Theorem confidence_from_probabilities m data ph tds suhu do p n
    (Hreq : valid_request float_of_str data ph tds suhu do)
    (Hpredict :
       predict m {| df_suhu := suhu; df_ph := ph; df_do := do; df_tds := tds |} = inr p)
    (Hint : prediction_to_int p = inr n) :
  exists r,
    classify float_str float_of_str (Some m) data = (ModelBody r, 200)
    /\ ModelResult.classification r = n
    /\ ModelResult.confidence r
       = match predict_proba m {| df_suhu := suhu; df_ph := ph; df_do := do; df_tds := tds |} with
         | inl _ => None
         | inr [] => None
         | inr (x :: xs) =>
             Some (fold_left (fun m item => if (item >? m)%float then item else m) xs x
                   * 100)%float
         end.
Proof.
  eexists. split; [apply (classify_model_path _ _ _ _ _ _ _ _ _ _ Hreq Hpredict Hint) |].
  cbn [ModelResult.classification ModelResult.confidence].
  split; [reflexivity |]. unfold get_confidence.
  destruct (predict_proba m _) as [e | [| x xs]]; reflexivity.
Qed.

End HandlerClaims.

(** * Concrete runs *)

(** C3, as stated, fails: the all-lowercase spelling of "Tidak Layak" is
    not in the table and is mapped to 1, not to 2; so is the all-uppercase
    spelling of "Kurang Layak", which should give 0. *)
Lemma lowercase_label_not_recognised :
  prediction_to_int (PStr "tidak layak") = inr 1
  /\ prediction_to_int (PStr "tidak layak") <> inr 2
  /\ prediction_to_int (PStr "KURANG LAYAK") = inr 1
  /\ prediction_to_int (PStr "  Tidak layak ") = inr 2.
Proof. repeat split; try reflexivity. discriminate. Qed.

(** C4, as stated, fails: a loaded model whose [predict] raises makes the
    handler answer with status 500 and an error payload; the threshold
    classifier is not consulted. *)
Lemma predict_error_is_reported :
  classify Sample.float_str Sample.float_of_str
    (Some (Sample.failing_model (OtherException "prediction failed")))
    (Sample.request 7.0 200 24 5.0)
  = (ErrorBody "Classification failed: prediction failed", 500).
Proof. vm_compute. reflexivity. Qed.

Lemma fallback_only_when_model_not_loaded_witness :
  valid_request Sample.float_of_str (Sample.request 7.0 700 24 5.0) 7.0 700 24 5.0
  /\ classify Sample.float_str Sample.float_of_str None (Sample.request 7.0 700 24 5.0)
     = (ThresholdBody (simple_classification Sample.float_str 7.0 700 24 5.0)
          "Using fallback classification (model not loaded)", 200)
  /\ classify Sample.float_str Sample.float_of_str
       (Some (Sample.failing_model (ValueError "Input contains NaN")))
       (Sample.request 7.0 700 24 5.0)
     = (ErrorBody "Invalid input values: Input contains NaN", 400).
Proof.
  assert (valid_request Sample.float_of_str (Sample.request 7.0 700 24 5.0) 7.0 700 24 5.0)
    as Hreq by (repeat split; reflexivity).
  split; [exact Hreq |].
  apply (fallback_only_when_model_not_loaded Sample.float_str Sample.float_of_str
           (Sample.failing_model (ValueError "Input contains NaN"))
           (Sample.request 7.0 700 24 5.0) 7.0 700 24 5.0
           (ValueError "Input contains NaN") Hreq).
  reflexivity.
Defined.

(** C5, as stated, fails: a model that predicts the number 5 is answered
    with [classification] 5 and the label "Unknown". *)
Lemma numeric_prediction_out_of_range :
  classify Sample.float_str Sample.float_of_str
    (Some (Sample.constant_model (PInt 5) [0.25; 0.75]%float))
    (Sample.request 7.0 200 24 5.0)
  = (ModelBody
       {| ModelResult.classification := 5;
          ModelResult.classification_label := "Unknown";
          ModelResult.confidence := Some 75%float;
          ModelResult.method := "decision_tree_model";
          ModelResult.original_prediction := "5";
          ModelResult.input :=
            {| in_ph := 7.0; in_tds := 200; in_suhu := 24; in_do := 5.0 |} |}, 200).
Proof. vm_compute. reflexivity. Qed.

Lemma model_path_classification_witness :
  valid_request Sample.float_of_str (Sample.request 7.0 200 24 5.0) 7.0 200 24 5.0
  /\ exists r,
       classify Sample.float_str Sample.float_of_str
         (Some (Sample.constant_model (PStr " Tidak layak ") [0.25; 0.75]%float))
         (Sample.request 7.0 200 24 5.0)
       = (ModelBody r, 200)
       /\ ModelResult.classification r = 2
       /\ ModelResult.classification_label r = "Tidak Layak"
       /\ (2 = 0 \/ 2 = 1 \/ 2 = 2).
Proof.
  assert (valid_request Sample.float_of_str (Sample.request 7.0 200 24 5.0) 7.0 200 24 5.0)
    as Hreq by (repeat split; reflexivity).
  split; [exact Hreq |].
  apply (model_path_classification Sample.float_str Sample.float_of_str
           (Sample.constant_model (PStr " Tidak layak ") [0.25; 0.75]%float)
           (Sample.request 7.0 200 24 5.0) 7.0 200 24 5.0
           (PStr " Tidak layak ") 2 Hreq);
    reflexivity.
Defined.

Lemma confidence_from_probabilities_witness :
  valid_request Sample.float_of_str (Sample.request 7.0 200 24 5.0) 7.0 200 24 5.0
  /\ exists r,
       classify Sample.float_str Sample.float_of_str
         (Some (Sample.constant_model (PInt 1) [0.25; 0.75]%float))
         (Sample.request 7.0 200 24 5.0)
       = (ModelBody r, 200)
       /\ ModelResult.classification r = 1
       /\ ModelResult.confidence r = Some 75%float.
Proof.
  assert (valid_request Sample.float_of_str (Sample.request 7.0 200 24 5.0) 7.0 200 24 5.0)
    as Hreq by (repeat split; reflexivity).
  split; [exact Hreq |].
  apply (confidence_from_probabilities Sample.float_str Sample.float_of_str
           (Sample.constant_model (PInt 1) [0.25; 0.75]%float)
           (Sample.request 7.0 200 24 5.0) 7.0 200 24 5.0
           (PInt 1) 1 Hreq);
    reflexivity.
Defined.

(** Without [predict_proba] the model path still answers, with a null
    confidence. *)
Example classify_without_proba :
  classify Sample.float_str Sample.float_of_str
    (Some (Sample.model_without_proba (PFloat 2.0)))
    (Sample.request 7.0 200 24 5.0)
  = (ModelBody
       {| ModelResult.classification := 2;
          ModelResult.classification_label := "Tidak Layak";
          ModelResult.confidence := None;
          ModelResult.method := "decision_tree_model";
          ModelResult.original_prediction := "2.0";
          ModelResult.input :=
            {| in_ph := 7.0; in_tds := 200; in_suhu := 24; in_do := 5.0 |} |}, 200).
Proof. vm_compute. reflexivity. Qed.

(** One bad parameter decides the label: the example of the
    specification. *)
Example one_bad_parameter_dominates :
  simple_classification Sample.float_str 7.0 700 24 5.0
  = {| classification := 2;
       classification_label := "Tidak Layak";
       confidence := None;
       method := "simple_threshold";
       reasons := ["TDS tidak layak (700.0 mg/L) - Range layak: 50-400 mg/L"];
       not_suitable_count := 1;
       less_suitable_count := 0 |}.
Proof. reflexivity. Qed.

(** A request with a field missing or not a number is refused with
    status 400. *)
Example classify_rejects_bad_input :
  classify Sample.float_str Sample.float_of_str None
    (delete "do" (Sample.request 7.0 200 24 5.0))
  = (ErrorBody "Missing required parameters. Need: ph, tds, suhu, do", 400)
  /\ classify Sample.float_str Sample.float_of_str None
       (<["ph" := JStr "abc"]> (Sample.request 7.0 200 24 5.0))
     = (ErrorBody "Invalid input values: could not convert string to float: 'abc'", 400).
Proof. split; vm_compute; reflexivity. Qed.


(** * Further properties: the order of floats *)

Ltac compare_cases :=
  repeat match goal with
         | |- context [(?a ?= ?b)%Z] => destruct (Z.compare_spec a b)
         | |- context [Pos.compare_cont Eq ?a ?b] =>
             change (Pos.compare_cont Eq a b) with (a ?= b)%positive;
             destruct (Pos.compare_spec a b)
         end.

Lemma SFleb_key f1 f2 : SFleb f1 f2 = true <-> SFle f1 f2.
Proof.
  destruct f1 as [[|] | [|] | | [|] m1 e1], f2 as [[|] | [|] | | [|] m2 e2];
    unfold SFleb, SFcompare, SFle, SFkey, key_le; compare_cases; cbn [CompOpp];
    (split; [intros Hyp; try discriminate Hyp; lia | intros Hyp; try reflexivity; lia]).
Qed.

Lemma SFltb_key f1 f2 : SFltb f1 f2 = true <-> SFlt f1 f2.
Proof.
  destruct f1 as [[|] | [|] | | [|] m1 e1], f2 as [[|] | [|] | | [|] m2 e2];
    unfold SFltb, SFcompare, SFlt, SFkey, key_lt; compare_cases; cbn [CompOpp];
    (split; [intros Hyp; try discriminate Hyp; lia | intros Hyp; try reflexivity; lia]).
Qed.

Lemma SFeqb_refl_key f : SFeqb f f = true <-> SFkey f <> None.
Proof.
  destruct f as [[|] | [|] | | [|] m e]; unfold SFeqb, SFcompare, SFkey;
    rewrite ?Z.compare_refl, ?Pos.compare_cont_refl; cbn [CompOpp];
    split; intros H; try reflexivity; try discriminate H; congruence.
Qed.

(** [<=] is transitive. *)
Lemma leb_trans x y z :
  (x <=? y)%float = true -> (y <=? z)%float = true -> (x <=? z)%float = true.
Proof.
  rewrite !FloatAxioms.leb_spec, !SFleb_key. unfold SFle.
  destruct (SFkey (Prim2SF x)) as [[[a1 b1] c1] |],
    (SFkey (Prim2SF y)) as [[[a2 b2] c2] |],
    (SFkey (Prim2SF z)) as [[[a3 b3] c3] |]; unfold key_le; try tauto; lia.
Qed.

(** On numbers, [x < y] is the negation of [y <= x]. *)
Lemma ltb_negb_leb x y :
  (x =? x)%float = true -> (y =? y)%float = true ->
  (x <? y)%float = negb (y <=? x)%float.
Proof.
  intros Hx Hy. rewrite FloatAxioms.eqb_spec in Hx, Hy.
  apply SFeqb_refl_key in Hx, Hy.
  apply eq_true_iff_eq. rewrite negb_true_iff, <- not_true_iff_false.
  rewrite FloatAxioms.ltb_spec, FloatAxioms.leb_spec, SFltb_key, SFleb_key.
  unfold SFlt, SFle.
  destruct (SFkey (Prim2SF x)) as [[[a1 b1] c1] |]; [| congruence].
  destruct (SFkey (Prim2SF y)) as [[[a2 b2] c2] |]; [| congruence].
  unfold key_lt, key_le. lia.
Qed.

(** Every comparison with NaN is false. *)
Lemma nan_compare x y :
  (x =? x)%float = false ->
  (x <? y)%float = false /\ (y <? x)%float = false
  /\ (x <=? y)%float = false /\ (y <=? x)%float = false.
Proof.
  intros Hx. rewrite FloatAxioms.eqb_spec in Hx.
  rewrite !FloatAxioms.ltb_spec, !FloatAxioms.leb_spec.
  destruct (Prim2SF x) as [[|] | [|] | | [|] m e];
    try (exfalso; revert Hx; unfold SFeqb, SFcompare;
         rewrite ?Z.compare_refl, ?Pos.compare_cont_refl; cbn [CompOpp]; discriminate).
  destruct (Prim2SF y) as [[|] | [|] | | [|] m e]; repeat split; reflexivity.
Qed.

(** Rewrites every [<] between numbers into a negated [<=]; [x] is the
    reading, the other side a constant. *)
Ltac only_leb Hx :=
  repeat match goal with
         | |- context [(?a <? ?b)%float] =>
             rewrite (ltb_negb_leb a b) by (exact Hx || reflexivity)
         end.

(** On a number, a parameter is Suitable exactly inside its range. *)
Lemma suitable_in_range p x :
  (x =? x)%float = true ->
  negb (bad_zone p x) && negb (marginal_band p x) = in_range_layak p x.
Proof.
  intros Hx.
  destruct p; unfold bad_zone, marginal_band, in_range_layak, range_layak; cbn [fst snd];
    only_leb Hx.
  - pose proof (leb_trans 6.0 6.5 x eq_refl) as T1.
    pose proof (fun H => leb_trans x 7.8 8.5 H eq_refl) as T2.
    destruct (6.0 <=? x)%float, (x <=? 8.5)%float, (6.5 <=? x)%float, (x <=? 7.8)%float;
      try reflexivity; try (discriminate (T1 eq_refl)); discriminate (T2 eq_refl).
  - pose proof (fun H => leb_trans x 400 600 H eq_refl) as T2.
    destruct (x <=? 600)%float, (50 <=? x)%float, (x <=? 400)%float;
      try reflexivity; discriminate (T2 eq_refl).
  - pose proof (leb_trans 21 23 x eq_refl) as T1.
    pose proof (fun H => leb_trans x 25 27 H eq_refl) as T2.
    destruct (21 <=? x)%float, (x <=? 27)%float, (23 <=? x)%float, (x <=? 25)%float;
      try reflexivity; try (discriminate (T1 eq_refl)); discriminate (T2 eq_refl).
  - pose proof (leb_trans 2.5 4 x eq_refl) as T1.
    pose proof (fun H => leb_trans x 6 7 H eq_refl) as T2.
    destruct (2.5 <=? x)%float, (x <=? 7)%float, (4 <=? x)%float, (x <=? 6)%float;
      try reflexivity; try (discriminate (T1 eq_refl)); discriminate (T2 eq_refl).
Qed.

Lemma ltb_leb x y : (x <? y)%float = true -> (x <=? y)%float = true.
Proof.
  rewrite FloatAxioms.ltb_spec, FloatAxioms.leb_spec, SFltb_key, SFleb_key.
  unfold SFlt, SFle.
  destruct (SFkey (Prim2SF x)) as [[[a1 b1] c1] |]; [| tauto].
  destruct (SFkey (Prim2SF y)) as [[[a2 b2] c2] |]; [| tauto].
  unfold key_lt, key_le. lia.
Qed.

(** Only a number compares below another. *)
Lemma ltb_number x y : (x <? y)%float = true -> (x =? x)%float = true.
Proof.
  intros H. destruct (x =? x)%float eqn:Hx; [reflexivity |].
  destruct (nan_compare x y Hx) as (E & _). congruence.
Qed.

(** [x < y <= z] gives [x <= z], and [z <= y < x] gives [z <= x]. *)
Lemma leb_below x y z :
  (x =? x)%float = true -> (y =? y)%float = true ->
  (y <=? x)%float = false -> (y <=? z)%float = true -> (x <=? z)%float = true.
Proof.
  intros Hx Hy Hlt Hle.
  apply leb_trans with y; [| exact Hle].
  apply ltb_leb. rewrite (ltb_negb_leb x y Hx Hy), Hlt. reflexivity.
Qed.

Lemma leb_above x y z :
  (x =? x)%float = true -> (y =? y)%float = true ->
  (x <=? y)%float = false -> (z <=? y)%float = true -> (z <=? x)%float = true.
Proof.
  intros Hx Hy Hlt Hle.
  apply leb_trans with y; [exact Hle |].
  apply ltb_leb. rewrite (ltb_negb_leb y x Hy Hx), Hlt. reflexivity.
Qed.

(** The overall label in terms of the verdicts. *)
Lemma classification_by_verdicts float_str ph tds suhu do :
  let verdicts := map (fun px => verdict_of px.1 px.2) (readings ph tds suhu do) in
  classification (simple_classification float_str ph tds suhu do)
  = (if existsb is_not_suitable verdicts then 2
     else if existsb is_marginal verdicts then 0
     else 1).
Proof.
  unfold simple_classification; cbn [classification].
  rewrite simple_classification_run.
  unfold readings, run_checks, reason_for; cbn [fold_left map existsb fst snd].
  destruct (verdict_of PH ph), (verdict_of TDS tds),
    (verdict_of Suhu suhu), (verdict_of DO do); reflexivity.
Qed.

(** The two counters after the checks of a list of readings. *)
Lemma run_checks_counts float_str l : forall st,
  st_not_suitable_count (run_checks float_str l st)
  = st_not_suitable_count st
    + Z.of_nat (length (List.filter (fun px => is_not_suitable (verdict_of px.1 px.2)) l))
  /\ st_less_suitable_count (run_checks float_str l st)
     = st_less_suitable_count st
       + Z.of_nat (length (List.filter (fun px => is_marginal (verdict_of px.1 px.2)) l)).
Proof.
  induction l as [| [p x] l IH]; intros st.
  - cbn. lia.
  - unfold run_checks in *. cbn [fold_left List.filter fst snd].
    destruct (IH (record_verdict (verdict_of p x) (reason_for float_str (p, x)) st))
      as (IHn & IHl).
    rewrite IHn, IHl. unfold reason_for.
    destruct (verdict_of p x), p; cbn [is_not_suitable is_marginal record_verdict
      add_not_suitable add_less_suitable st_not_suitable_count st_less_suitable_count length];
      lia.
Qed.

Section ThresholdExtras.

Variable float_str : float -> string.

(** X1: on a number, a parameter gets the verdict Suitable, and so no
    reason, exactly when the value lies in the range that the reason
    strings of that parameter print as "Range layak", bounds included. *)
Theorem suitable_iff_in_range p x (Hx : (x =? x)%float = true) :
  (verdict_of p x = Suitable <-> in_range_layak p x = true)
  /\ (reason_for float_str (p, x) = None <-> in_range_layak p x = true).
Proof.
  assert (verdict_of p x = Suitable <-> in_range_layak p x = true) as H.
  { rewrite <- (suitable_in_range p x Hx). unfold verdict_of.
    destruct (bad_zone p x), (marginal_band p x); cbn; split; congruence. }
  split; [exact H |]. rewrite <- H. apply (reason_for_None float_str (p, x)).
Qed.

(** X2: a reading that is NaN passes every check: readings that are all
    NaN are classified 1, "Layak", with no reason and both counts 0. *)
Theorem nan_readings_are_layak ph tds suhu do
    (Hph : (ph =? ph)%float = false) (Htds : (tds =? tds)%float = false)
    (Hsuhu : (suhu =? suhu)%float = false) (Hdo : (do =? do)%float = false) :
  simple_classification float_str ph tds suhu do
  = {| classification := 1;
       classification_label := "Layak";
       confidence := None;
       method := "simple_threshold";
       reasons := [];
       not_suitable_count := 0;
       less_suitable_count := 0 |}.
Proof.
  assert (forall p x, (x =? x)%float = false -> verdict_of p x = Suitable) as N.
  { intros p x Hx. unfold verdict_of, bad_zone, marginal_band.
    destruct p;
      repeat match goal with
             | |- context [(?a <? ?b)%float] =>
                 first [ rewrite (proj1 (nan_compare x b Hx))
                       | rewrite (proj1 (proj2 (nan_compare x a Hx))) ]
             | |- context [(?a <=? ?b)%float] =>
                 first [ rewrite (proj1 (proj2 (proj2 (nan_compare x b Hx))))
                       | rewrite (proj2 (proj2 (proj2 (nan_compare x a Hx)))) ]
             end; reflexivity. }
  unfold simple_classification. rewrite simple_classification_run.
  unfold readings, run_checks, reason_for; cbn [fold_left fst snd].
  rewrite (N PH ph Hph), (N TDS tds Htds), (N Suhu suhu Hsuhu), (N DO do Hdo).
  reflexivity.
Qed.

(** X3: on numbers, the sample is classified 1 ("Layak") exactly when all
    four readings lie in their ranges. *)
Theorem layak_iff_all_in_range ph tds suhu do
    (Hph : (ph =? ph)%float = true) (Htds : (tds =? tds)%float = true)
    (Hsuhu : (suhu =? suhu)%float = true) (Hdo : (do =? do)%float = true) :
  classification (simple_classification float_str ph tds suhu do) = 1
  <-> forallb (fun px => in_range_layak px.1 px.2) (readings ph tds suhu do) = true.
Proof.
  rewrite classification_by_verdicts.
  unfold readings; cbn [map existsb forallb fst snd].
  rewrite <- (suitable_in_range PH ph Hph), <- (suitable_in_range TDS tds Htds),
    <- (suitable_in_range Suhu suhu Hsuhu), <- (suitable_in_range DO do Hdo).
  unfold verdict_of.
  destruct (bad_zone PH ph), (marginal_band PH ph), (bad_zone TDS tds),
    (marginal_band TDS tds), (bad_zone Suhu suhu), (marginal_band Suhu suhu),
    (bad_zone DO do), (marginal_band DO do); cbn; split; congruence.
Qed.

(** X4: [not_suitable_count] is the number of parameters whose verdict is
    NotSuitable and [less_suitable_count] the number of those whose verdict
    is MarginallySuitable. *)
Theorem counts_count_verdicts ph tds suhu do :
  let r := simple_classification float_str ph tds suhu do in
  let verdicts := map (fun px => verdict_of px.1 px.2) (readings ph tds suhu do) in
  not_suitable_count r = Z.of_nat (length (List.filter is_not_suitable verdicts))
  /\ less_suitable_count r = Z.of_nat (length (List.filter is_marginal verdicts)).
Proof.
  unfold simple_classification; cbn [not_suitable_count less_suitable_count].
  rewrite simple_classification_run.
  destruct (run_checks_counts float_str (readings ph tds suhu do) initial_locals)
    as (Hn & Hl).
  rewrite Hn, Hl. unfold readings; cbn [map List.filter fst snd initial_locals
    st_not_suitable_count st_less_suitable_count].
  destruct (verdict_of PH ph), (verdict_of TDS tds),
    (verdict_of Suhu suhu), (verdict_of DO do); split; reflexivity.
Qed.

(** X5: the threshold classifier always returns a class among 0, 1, 2
    together with its own name; the fallback name "Unknown" is never
    produced. *)
Theorem classification_label_known ph tds suhu do :
  let r := simple_classification float_str ph tds suhu do in
  (classification r = 0 /\ classification_label r = "Kurang Layak")
  \/ (classification r = 1 /\ classification_label r = "Layak")
  \/ (classification r = 2 /\ classification_label r = "Tidak Layak").
Proof.
  unfold simple_classification; cbn [classification classification_label].
  unfold tentukan_klasifikasi.
  destruct (st_not_suitable_count _ >? 0); [right; right; split; reflexivity |].
  destruct (st_less_suitable_count _ >? 0); [left | right; left]; split; reflexivity.
Qed.

(** X6: TDS has no lower bad zone: a TDS below 50, however low, is only
    MarginallySuitable; the check adds one to [less_suitable_count], leaves
    [not_suitable_count] as it is and appends the "kurang layak" reason. *)
Theorem tds_below_50_is_marginal tds st (Hlow : (tds <? 50)%float = true) :
  verdict_of TDS tds = MarginallySuitable
  /\ cek_tds float_str tds st = add_less_suitable (tds_kurang_layak float_str tds) st
  /\ st_less_suitable_count (cek_tds float_str tds st) = st_less_suitable_count st + 1
  /\ st_not_suitable_count (cek_tds float_str tds st) = st_not_suitable_count st
  /\ st_reasons (cek_tds float_str tds st)
     = st_reasons st ++ [tds_kurang_layak float_str tds].
Proof.
  assert ((tds >? 600)%float = false) as Hbad.
  { rewrite (ltb_negb_leb 600 tds eq_refl (ltb_number tds 50 Hlow)).
    rewrite (leb_trans tds 50 600 (ltb_leb tds 50 Hlow) eq_refl). reflexivity. }
  unfold verdict_of, cek_tds, bad_zone, marginal_band.
  rewrite Hbad, Hlow. repeat split; reflexivity.
Qed.

(** X7: no value satisfies both the condition of the NotSuitable branch and
    that of the MarginallySuitable branch of a check: the verdict does not
    depend on the order of the two branches. *)
Theorem bad_and_marginal_exclusive p x :
  bad_zone p x && marginal_band p x = false.
Proof.
  destruct (x =? x)%float eqn:Hx.
  - destruct p; unfold bad_zone, marginal_band; only_leb Hx.
    + pose proof (fun H => leb_below x 6.0 7.8 Hx eq_refl H eq_refl) as T1.
      pose proof (fun H => leb_above x 8.5 6.5 Hx eq_refl H eq_refl) as T2.
      destruct (6.0 <=? x)%float, (x <=? 8.5)%float, (6.5 <=? x)%float, (x <=? 7.8)%float;
        try reflexivity; try discriminate (T1 eq_refl); discriminate (T2 eq_refl).
    + pose proof (fun H => leb_above x 600 50 Hx eq_refl H eq_refl) as T1.
      destruct (x <=? 600)%float, (50 <=? x)%float, (x <=? 400)%float;
        try reflexivity; discriminate (T1 eq_refl).
    + pose proof (fun H => leb_below x 21 25 Hx eq_refl H eq_refl) as T1.
      pose proof (fun H => leb_above x 27 23 Hx eq_refl H eq_refl) as T2.
      destruct (21 <=? x)%float, (x <=? 27)%float, (23 <=? x)%float, (x <=? 25)%float;
        try reflexivity; try discriminate (T1 eq_refl); discriminate (T2 eq_refl).
    + pose proof (fun H => leb_below x 2.5 6 Hx eq_refl H eq_refl) as T1.
      pose proof (fun H => leb_above x 7 4 Hx eq_refl H eq_refl) as T2.
      destruct (2.5 <=? x)%float, (x <=? 7)%float, (4 <=? x)%float, (x <=? 6)%float;
        try reflexivity; try discriminate (T1 eq_refl); discriminate (T2 eq_refl).
  - destruct p; unfold bad_zone, marginal_band;
      repeat match goal with
             | |- context [(?a <? ?b)%float] =>
                 first [ rewrite (proj1 (nan_compare x b Hx))
                       | rewrite (proj1 (proj2 (nan_compare x a Hx))) ]
             end; reflexivity.
Qed.

End ThresholdExtras.

(** * Further properties: labels *)

Lemma append_cons c s t : String c s +:+ t = String c (s +:+ t).
Proof. reflexivity. Qed.

Lemma lstrip_all_space ws : all_space ws = true -> lstrip ws = "".
Proof.
  induction ws as [| c ws IH]; [reflexivity |]; cbn [all_space lstrip].
  intros [Hc Hws]%andb_true_iff. rewrite Hc. auto.
Qed.

Lemma lstrip_leading ws s : all_space ws = true -> lstrip (ws +:+ s) = lstrip s.
Proof.
  induction ws as [| c ws IH]; [reflexivity |]; cbn [all_space].
  intros [Hc Hws]%andb_true_iff. rewrite append_cons; cbn [lstrip]. rewrite Hc. auto.
Qed.

Lemma lstrip_append s t :
  lstrip (s +:+ t) = if all_space s then lstrip t else lstrip s +:+ t.
Proof.
  induction s as [| c s IH]; [reflexivity |].
  rewrite append_cons; cbn [lstrip all_space].
  destruct (isspace c); [exact IH | reflexivity].
Qed.

Lemma rev_app_append s1 s2 t :
  String.rev_app (s1 +:+ s2) t = String.rev_app s2 (String.rev_app s1 t).
Proof.
  revert t; induction s1 as [| c s1 IH]; intros t; [reflexivity |].
  rewrite append_cons; cbn [String.rev_app]. apply IH.
Qed.

Lemma lstrip_rev_app ws t :
  all_space ws = true -> lstrip (String.rev_app ws t) = lstrip t.
Proof.
  revert t; induction ws as [| c ws IH]; intros t; [reflexivity |]; cbn [all_space].
  intros [Hc Hws]%andb_true_iff. cbn [String.rev_app].
  rewrite (IH _ Hws); cbn [lstrip]. now rewrite Hc.
Qed.

Lemma rstrip_trailing s ws : all_space ws = true -> rstrip (s +:+ ws) = rstrip s.
Proof.
  intros Hws. unfold rstrip, String.rev.
  rewrite rev_app_append, (lstrip_rev_app _ _ Hws). reflexivity.
Qed.

(** Whitespace around a string does not change what [strip] returns. *)
Lemma strip_padding ws1 s ws2 :
  all_space ws1 = true -> all_space ws2 = true ->
  strip (ws1 +:+ s +:+ ws2) = strip s.
Proof.
  intros H1 H2. unfold strip.
  rewrite (lstrip_leading _ _ H1), lstrip_append.
  destruct (all_space s) eqn:Hs.
  - now rewrite (lstrip_all_space _ H2), (lstrip_all_space _ Hs).
  - apply rstrip_trailing, H2.
Qed.

(** X8: the names of [label_names] are read back by the string-label
    mapping as the numbers they name: a model that emits the service's own
    label names gets its own class numbers. *)
Theorem label_name_round_trip c s (Hname : label_names !! c = Some s) :
  prediction_to_int (PStr s) = inr c.
Proof.
  unfold label_names in Hname.
  rewrite !lookup_insert, lookup_empty in Hname.
  repeat case_decide; subst; try discriminate Hname;
    injection Hname as <-; reflexivity.
Qed.

(** X9: whitespace before and after a string label, of any length, does
    not change the class it is mapped to. *)
Theorem label_padding_ignored ws1 s ws2
    (H1 : all_space ws1 = true) (H2 : all_space ws2 = true) :
  prediction_to_int (PStr (ws1 +:+ s +:+ ws2)) = prediction_to_int (PStr s).
Proof.
  unfold prediction_to_int. now rewrite (strip_padding _ _ _ H1 H2).
Qed.

(** * Further properties: the confidence *)

Lemma leb_refl x : (x =? x)%float = true -> (x <=? x)%float = true.
Proof.
  intros Hx. rewrite FloatAxioms.eqb_spec in Hx. apply SFeqb_refl_key in Hx.
  rewrite FloatAxioms.leb_spec, SFleb_key. unfold SFle.
  destruct (SFkey (Prim2SF x)) as [[[a b] c] |]; [| congruence].
  unfold key_le. lia.
Qed.

(** What the loop of [max] keeps: the running maximum is an item seen so
    far and no item seen so far is above it. *)
Lemma max_loop_bound xs : forall a,
  (a =? a)%float = true ->
  forallb (fun q => (q =? q)%float) xs = true ->
  let m := fold_left (fun m item => if (item >? m)%float then item else m) xs a in
  In m (a :: xs)
  /\ (m =? m)%float = true
  /\ forall q, In q (a :: xs) -> (q <=? m)%float = true.
Proof.
  induction xs as [| x xs IH]; intros a Ha Hxs; cbn [fold_left].
  - split; [now left |]. split; [exact Ha |].
    intros q [<- | []]. apply leb_refl, Ha.
  - cbn [forallb] in Hxs. apply andb_true_iff in Hxs as [Hx Hxs].
    set (a' := if (x >? a)%float then x else a).
    assert ((a' =? a')%float = true) as Ha'.
    { unfold a'. destruct (x >? a)%float; assumption. }
    assert ((a <=? a')%float = true /\ (x <=? a')%float = true) as [Haa' Hxa'].
    { unfold a'. destruct (x >? a)%float eqn:Hgt.
      - split; [apply ltb_leb, Hgt | apply leb_refl, Hx].
      - split; [apply leb_refl, Ha |].
        rewrite (ltb_negb_leb a x Ha Hx) in Hgt.
        now apply negb_false_iff in Hgt. }
    destruct (IH a' Ha' Hxs) as (Hin & Hm & Hle).
    split; [| split; [exact Hm |]].
    + destruct Hin as [Hin | Hin]; [| right; now right].
      rewrite <- Hin. unfold a'. destruct (x >? a)%float; [right; now left | now left].
    + intros q [<- | [<- | Hq]].
      * apply leb_trans with a'; [exact Haa' | apply Hle; now left].
      * apply leb_trans with a'; [exact Hxa' | apply Hle; now left].
      * apply Hle. now right.
Qed.

(** X10: when [predict_proba] returns a non-empty row of numbers, the
    confidence reported is 100 times an item of the row that no item of the
    row exceeds. *)
Theorem confidence_is_largest_probability model df row
    (Hrow : predict_proba model df = inr row)
    (Hnum : forallb (fun q => (q =? q)%float) row = true)
    (Hne : row <> []) :
  exists m, In m row
            /\ (forall q, In q row -> (q <=? m)%float = true)
            /\ get_confidence model df = Some (m * 100)%float.
Proof.
  unfold get_confidence. rewrite Hrow; cbn [bind].
  destruct row as [| x xs]; [congruence |].
  cbn [py_max ret].
  cbn [forallb] in Hnum. apply andb_true_iff in Hnum as [Hx Hxs].
  destruct (max_loop_bound xs x Hx Hxs) as (Hin & _ & Hle).
  eexists. split; [exact Hin |]. split; [exact Hle | reflexivity].
Qed.

(** * Further properties: the handler *)

Section HandlerExtras.

Variable float_str : float -> string.
Variable float_of_str : string -> string + float.

(** X11: a request that lacks one of the four keys is answered with
    status 400 and the missing-parameters message, whatever the other
    values are and whether or not a model is loaded. *)
Theorem missing_parameter_rejected model data k
    (Hk : k ∈ required_keys) (Hmiss : data !! k = None) :
  classify float_str float_of_str model data
  = (ErrorBody "Missing required parameters. Need: ph, tds, suhu, do", 400).
Proof.
  assert (forallb (fun k => bool_decide (is_Some (data !! k))) ["ph"; "tds"; "suhu"; "do"]
          = false) as Hall.
  { unfold required_keys in Hk. rewrite !elem_of_cons, elem_of_nil in Hk.
    assert (bool_decide (is_Some (data !! k)) = false) as Hf.
    { apply bool_decide_eq_false. rewrite Hmiss. intros [? ?]; discriminate. }
    cbn [forallb].
    destruct Hk as [-> | [-> | [-> | [-> | []]]]]; rewrite Hf;
      rewrite ?andb_false_r; reflexivity. }
  unfold classify, classify_try. rewrite Hall. reflexivity.
Qed.

(** X12: when the four keys are present and [float()] rejects a value, the
    response is the error response of the first rejection in the order ph,
    tds, suhu, do, whatever the model: status 400 for a ValueError (a
    string that is not a number), status 500 for anything else (a null, a
    list). *)
Theorem rejected_value_response model data e
    (Hkeys : forall k, k ∈ required_keys -> is_Some (data !! k))
    (Herr : first_error float_of_str data = Some e) :
  classify float_str float_of_str model data = error_response e.
Proof.
  destruct (Hkeys "ph") as [v1 E1]; [apply list_elem_of_In; cbn; tauto |].
  destruct (Hkeys "tds") as [v2 E2]; [apply list_elem_of_In; cbn; tauto |].
  destruct (Hkeys "suhu") as [v3 E3]; [apply list_elem_of_In; cbn; tauto |].
  destruct (Hkeys "do") as [v4 E4]; [apply list_elem_of_In; cbn; tauto |].
  unfold first_error, required_keys, field in Herr.
  cbn [omap list_omap] in Herr. rewrite E1, E2, E3, E4 in Herr.
  cbn [fmap option_fmap option_map] in Herr.
  unfold classify, classify_try, getitem; cbn [forallb].
  rewrite E1, E2, E3, E4. rewrite !bool_decide_true by eauto.
  cbn [andb negb bind ret].
  destruct (py_float float_of_str v1) as [e1 | x1]; cbn [bind];
    [cbn in Herr; injection Herr as <-; destruct e1; reflexivity |].
  destruct (py_float float_of_str v2) as [e2 | x2]; cbn [bind];
    [cbn in Herr; injection Herr as <-; destruct e2; reflexivity |].
  destruct (py_float float_of_str v3) as [e3 | x3]; cbn [bind];
    [cbn in Herr; injection Herr as <-; destruct e3; reflexivity |].
  destruct (py_float float_of_str v4) as [e4 | x4]; cbn [bind];
    [cbn in Herr; injection Herr as <-; destruct e4; reflexivity |].
  discriminate Herr.
Qed.

(** X13: the handler looks at the request only through what [float()]
    makes of the values of the four keys: two requests that agree on these
    get the same response, so further keys are ignored and a numeric
    string is treated like the number it denotes. *)
Theorem classify_depends_on_fields model data1 data2
    (Hsame : forall k, k ∈ required_keys ->
               field float_of_str data1 k = field float_of_str data2 k) :
  classify float_str float_of_str model data1
  = classify float_str float_of_str model data2.
Proof.
  assert (forall k, k ∈ required_keys ->
            bool_decide (is_Some (data1 !! k)) = bool_decide (is_Some (data2 !! k))
            /\ (getitem data1 k >>= py_float float_of_str)
               = (getitem data2 k >>= py_float float_of_str)
               \/ (data1 !! k = None /\ data2 !! k = None)) as H.
  { intros k Hk. specialize (Hsame k Hk). unfold field, getitem in *.
    destruct (data1 !! k) as [v |], (data2 !! k) as [w |];
      cbn in Hsame; try discriminate Hsame.
    - left. split; [reflexivity |]. cbn [bind ret]. now injection Hsame.
    - right. split; reflexivity. }
  assert (forall k, k ∈ required_keys ->
            bool_decide (is_Some (data1 !! k)) = bool_decide (is_Some (data2 !! k))) as Hb.
  { intros k Hk. destruct (H k Hk) as [[Hb _] | [-> ->]]; [exact Hb | reflexivity]. }
  unfold classify, classify_try; cbn [forallb].
  rewrite (Hb "ph"), (Hb "tds"), (Hb "suhu"), (Hb "do")
    by (apply list_elem_of_In; cbn; tauto).
  destruct (H "ph") as [[_ G1] | [_ N1]]; [apply list_elem_of_In; cbn; tauto | |];
    [| rewrite N1; rewrite bool_decide_false by (intros [? ?]; discriminate); reflexivity].
  destruct (H "tds") as [[_ G2] | [_ N2]]; [apply list_elem_of_In; cbn; tauto | |];
    [| rewrite N2; rewrite (bool_decide_false (is_Some None)) by (intros [? ?]; discriminate);
       rewrite ?andb_false_r; reflexivity].
  destruct (H "suhu") as [[_ G3] | [_ N3]]; [apply list_elem_of_In; cbn; tauto | |];
    [| rewrite N3; rewrite (bool_decide_false (is_Some None)) by (intros [? ?]; discriminate);
       rewrite ?andb_false_r; reflexivity].
  destruct (H "do") as [[_ G4] | [_ N4]]; [apply list_elem_of_In; cbn; tauto | |];
    [| rewrite N4; rewrite (bool_decide_false (is_Some None)) by (intros [? ?]; discriminate);
       rewrite ?andb_false_r; reflexivity].
  rewrite G1, G2, G3, G4. reflexivity.
Qed.

(** X14: every response is of one of three shapes: an error payload with
    status 400 or 500; the threshold result with status 200, only when no
    model is loaded; or the model result with status 200 and method
    "decision_tree_model", only when a model is loaded.  The status is 200
    exactly when the body is not an error. *)
Theorem response_shape model data :
  match classify float_str float_of_str model data with
  | (ErrorBody _, code) => code = 400 \/ code = 500
  | (ThresholdBody r _, code) =>
      code = 200 /\ model = None /\ method r = "simple_threshold"
  | (ModelBody r, code) =>
      code = 200 /\ model <> None /\ ModelResult.method r = "decision_tree_model"
  end.
Proof.
  unfold classify, classify_try.
  destruct (negb _); [cbn; auto |].
  destruct (getitem data "ph" >>= _) as [[?|?] | ph]; cbn [bind]; [cbn; auto.. |].
  destruct (getitem data "tds" >>= _) as [[?|?] | tds]; cbn [bind]; [cbn; auto.. |].
  destruct (getitem data "suhu" >>= _) as [[?|?] | suhu]; cbn [bind]; [cbn; auto.. |].
  destruct (getitem data "do" >>= _) as [[?|?] | do]; cbn [bind]; [cbn; auto.. |].
  destruct model as [m |]; [| cbn; auto].
  destruct (predict m _) as [[?|?] | p]; cbn [bind]; [cbn; auto.. |].
  destruct (prediction_to_int p) as [[?|?] | n]; cbn [bind]; [cbn; auto.. |].
  cbn. repeat split; congruence.
Qed.

(** X15: [/health] reports [model_loaded] false exactly when loading the
    model raised at start-up or returned [None], and exactly then an
    accepted request is answered by the threshold classifier with its
    note. *)
Theorem health_tells_fallback joblib_load data ph tds suhu do
    (Hreq : valid_request float_of_str data ph tds suhu do) :
  let model := load_model joblib_load in
  health model
  = ({| status := "healthy";
        model_loaded := negb (bool_decide (model = None));
        message := "Classification API is running" |}, 200)
  /\ (model_loaded (health model).1 = false <->
      (exists e, joblib_load = inl e) \/ joblib_load = inr None)
  /\ (model_loaded (health model).1 = false <->
      classify float_str float_of_str model data
      = (ThresholdBody (simple_classification float_str ph tds suhu do)
           "Using fallback classification (model not loaded)", 200)).
Proof.
  unfold classify. cbn zeta.
  rewrite (classify_try_valid _ _ _ _ _ _ _ _ Hreq).
  destruct joblib_load as [e | [m |]]; cbn [load_model health model_loaded fst].
  - split; [reflexivity |]. split; [split; eauto |]. split; reflexivity.
  - split; [reflexivity |]. split.
    + split; [discriminate | intros [[e He] | He]; discriminate He].
    + split; [discriminate |]. cbn zeta.
      destruct (predict m _) as [[?|?] | p]; cbn [bind]; [discriminate.. |].
      destruct (prediction_to_int p) as [[?|?] | n]; cbn [bind]; discriminate.
  - split; [reflexivity |]. split; [split; auto |]. split; reflexivity.
Qed.

End HandlerExtras.

(** X16: the reasons list is empty exactly when the sample is classified 1
    ("Layak"): every other class comes with at least one reason. *)
Theorem no_reason_iff_layak float_str ph tds suhu do :
  let r := simple_classification float_str ph tds suhu do in
  reasons r = [] <-> classification r = 1.
Proof.
  unfold simple_classification; cbn [reasons classification].
  rewrite simple_classification_run.
  pose proof (counted_run_checks float_str (readings ph tds suhu do) 0
                initial_locals counted_initial) as (Hlen & Hn & Hl & _).
  unfold tentukan_klasifikasi.
  destruct (run_checks float_str (readings ph tds suhu do) initial_locals)
    as [n l rs]; cbn [st_reasons st_not_suitable_count st_less_suitable_count] in *.
  destruct (Z.gtb_spec n 0), (Z.gtb_spec l 0);
    (split; [intros ->; cbn [length] in Hlen; lia
            | intros Hc; try discriminate Hc;
              (destruct rs; [reflexivity | cbn [length] in Hlen; lia])]).
Qed.

(** * Concrete runs of the further properties *)

Lemma suitable_iff_in_range_witness :
  (verdict_of PH 7.0 = Suitable <-> in_range_layak PH 7.0 = true)
  /\ (reason_for Sample.float_str (PH, 7.0%float) = None <-> in_range_layak PH 7.0 = true).
Proof. apply (suitable_iff_in_range Sample.float_str PH 7.0). reflexivity. Defined.

Lemma nan_readings_are_layak_witness :
  simple_classification Sample.float_str nan nan nan nan
  = {| classification := 1;
       classification_label := "Layak";
       confidence := None;
       method := "simple_threshold";
       reasons := [];
       not_suitable_count := 0;
       less_suitable_count := 0 |}.
Proof.
  apply (nan_readings_are_layak Sample.float_str nan nan nan nan); reflexivity.
Defined.

Lemma layak_iff_all_in_range_witness :
  classification (simple_classification Sample.float_str 7.0 200 24 5.0) = 1
  <-> forallb (fun px => in_range_layak px.1 px.2) (readings 7.0 200 24 5.0) = true.
Proof.
  apply (layak_iff_all_in_range Sample.float_str 7.0 200 24 5.0); reflexivity.
Defined.

Lemma tds_below_50_is_marginal_witness :
  verdict_of TDS (-1000) = MarginallySuitable
  /\ cek_tds Sample.float_str (-1000) initial_locals
     = add_less_suitable (tds_kurang_layak Sample.float_str (-1000)) initial_locals
  /\ st_less_suitable_count (cek_tds Sample.float_str (-1000) initial_locals)
     = st_less_suitable_count initial_locals + 1
  /\ st_not_suitable_count (cek_tds Sample.float_str (-1000) initial_locals)
     = st_not_suitable_count initial_locals
  /\ st_reasons (cek_tds Sample.float_str (-1000) initial_locals)
     = st_reasons initial_locals ++ [tds_kurang_layak Sample.float_str (-1000)].
Proof.
  apply (tds_below_50_is_marginal Sample.float_str (-1000) initial_locals). reflexivity.
Defined.

Lemma label_name_round_trip_witness :
  label_names !! 2 = Some "Tidak Layak"
  /\ prediction_to_int (PStr "Tidak Layak") = inr 2.
Proof.
  split; [reflexivity |].
  apply (label_name_round_trip 2 "Tidak Layak"). reflexivity.
Defined.

Lemma label_padding_ignored_witness :
  prediction_to_int (PStr ("  " +:+ "Kurang layak" +:+ " "))
  = prediction_to_int (PStr "Kurang layak").
Proof.
  apply (label_padding_ignored "  " "Kurang layak" " "); reflexivity.
Defined.

Lemma confidence_is_largest_probability_witness :
  exists m, In m [0.25; 0.75]%float
            /\ (forall q, In q [0.25; 0.75]%float -> (q <=? m)%float = true)
            /\ get_confidence (Sample.constant_model (PInt 1) [0.25; 0.75]%float)
                 {| df_suhu := 24; df_ph := 7.0; df_do := 5.0; df_tds := 200 |}
               = Some (m * 100)%float.
Proof.
  apply (confidence_is_largest_probability
           (Sample.constant_model (PInt 1) [0.25; 0.75]%float)
           {| df_suhu := 24; df_ph := 7.0; df_do := 5.0; df_tds := 200 |}
           [0.25; 0.75]%float); [reflexivity | reflexivity | discriminate].
Defined.

Lemma missing_parameter_rejected_witness :
  classify Sample.float_str Sample.float_of_str
    (Some (Sample.constant_model (PInt 1) []))
    (delete "do" (<["ph" := JStr "abc"]> (Sample.request 7.0 200 24 5.0)))
  = (ErrorBody "Missing required parameters. Need: ph, tds, suhu, do", 400).
Proof.
  apply (missing_parameter_rejected Sample.float_str Sample.float_of_str _ _ "do");
    [apply list_elem_of_In; cbn; tauto | reflexivity].
Defined.

Lemma rejected_value_response_witness :
  classify Sample.float_str Sample.float_of_str None
    (<["tds" := JOther "float() argument must be a string or a real number"]>
       (<["do" := JStr "abc"]> (Sample.request 7.0 200 24 5.0)))
  = (ErrorBody "Classification failed: float() argument must be a string or a real number",
     500).
Proof.
  apply (rejected_value_response Sample.float_str Sample.float_of_str None _
           (OtherException "float() argument must be a string or a real number")).
  - intros k Hk. apply list_elem_of_In in Hk. cbn in Hk.
    destruct Hk as [<- | [<- | [<- | [<- | []]]]]; eexists; reflexivity.
  - reflexivity.
Defined.

Lemma classify_depends_on_fields_witness :
  classify Sample.float_str Sample.float_of_str None
    (<["ph" := JStr "7.0"]> (<["unit" := JStr "mg/L"]> (Sample.request 6.2 200 24 5.0)))
  = classify Sample.float_str Sample.float_of_str None (Sample.request 7.0 200 24 5.0).
Proof.
  apply (classify_depends_on_fields Sample.float_str Sample.float_of_str).
  intros k Hk. apply list_elem_of_In in Hk. cbn in Hk.
  destruct Hk as [<- | [<- | [<- | [<- | []]]]]; reflexivity.
Defined.

Lemma health_tells_fallback_witness :
  health (load_model (inl (OtherException "No such file or directory")))
  = ({| status := "healthy";
        model_loaded := false;
        message := "Classification API is running" |}, 200)
  /\ health (load_model (inr None))
     = ({| status := "healthy";
           model_loaded := false;
           message := "Classification API is running" |}, 200)
  /\ classify Sample.float_str Sample.float_of_str (load_model (inr None))
       (Sample.request 7.0 200 24 5.0)
     = (ThresholdBody (simple_classification Sample.float_str 7.0 200 24 5.0)
          "Using fallback classification (model not loaded)", 200)
  /\ classify Sample.float_str Sample.float_of_str
       (load_model (inl (OtherException "No such file or directory")))
       (Sample.request 7.0 200 24 5.0)
     = (ThresholdBody (simple_classification Sample.float_str 7.0 200 24 5.0)
          "Using fallback classification (model not loaded)", 200).
Proof.
  assert (valid_request Sample.float_of_str (Sample.request 7.0 200 24 5.0) 7.0 200 24 5.0)
    as Hreq by (repeat split; reflexivity).
  destruct (health_tells_fallback Sample.float_str Sample.float_of_str
              (inl (OtherException "No such file or directory"))
              (Sample.request 7.0 200 24 5.0) 7.0 200 24 5.0 Hreq) as (Hh & _ & Hc).
  destruct (health_tells_fallback Sample.float_str Sample.float_of_str
              (inr None)
              (Sample.request 7.0 200 24 5.0) 7.0 200 24 5.0 Hreq) as (Hh' & _ & Hc').
  split; [exact Hh |]. split; [exact Hh' |].
  split; [apply Hc'; reflexivity | apply Hc; reflexivity].
Defined.
